(** * Verification of [clp_py_utils/sql_adapter.py]

    A shallow embedding of the [SQL_Adapter] class of
    [components/clp-py-utils/clp_py_utils/sql_adapter.py] and the proofs of
    its specification.

    The class is effectful Python: it calls two client libraries
    ([mysql.connector.connect] and [mariadb.connect]), writes to the
    process-wide [logging] sink and raises exceptions.  The embedding keeps
    these effects explicit: a method is a function from the run-time state
    (the adapter object and the chronological trace of external effects) to
    an outcome (a returned value or a raised exception) and a new state. *)

From Stdlib Require Import String Ascii List ZArith Lia Bool.
Import ListNotations.

Local Open Scope string_scope.
Local Open Scope Z_scope.
Local Open Scope list_scope.

(** ** Python values, exceptions and outcomes *)

(** The values that occur in a keyword-argument mapping. *)
Inductive value : Type :=
| VStr (s : string)
| VInt (z : Z)
| VBool (b : bool)
| VNone.

(** The mapping unpacked by [**params] at a call site. *)
Definition kwargs : Type := list (string * value).

(** What a client library's error object exposes: the identity of the
    object, its [errno] attribute and the text [str(err)] renders. *)
Record client_error : Type := mk_client_error {
  err_obj : nat;
  errno : Z;
  err_str : string
}.

(** Exceptions, by the classes the [except] clauses of the module tell
    apart.  [mysql_connector_Error] and [mariadb_Error] stand for the
    respective class and its subclasses; [NotImplementedError] carries the
    [args] tuple it was built with; [OtherException] is any other
    exception object, with its class name, identity and text. *)
Inductive exn : Type :=
| mysql_connector_Error (err : client_error)
| mariadb_Error (err : client_error)
| NotImplementedError (args : list string)
| OtherException (cls : string) (obj : nat) (str : string).

(** [except mysql.connector.Error as err] *)
Definition except_mysql_connector_Error (e : exn) : option client_error :=
  match e with
  | mysql_connector_Error err => Some err
  | _ => None
  end.

(** [except mariadb.Error as err] *)
Definition except_mariadb_Error (e : exn) : option client_error :=
  match e with
  | mariadb_Error err => Some err
  | _ => None
  end.

(** The outcome of a call: it returns or it raises. *)
Inductive result (A : Type) : Type :=
| Returned (a : A)
| Raised (e : exn).
Arguments Returned {A} a.
Arguments Raised {A} e.

(** An opaque handle to a live database session. *)
Inductive connection : Type :=
| ConnectionHandle (h : nat).

(** [mysql.connector.errorcode]: the server error numbers the module
    compares [err.errno] with. *)
Module errorcode.
Definition ER_ACCESS_DENIED_ERROR : Z := 1045.
Definition ER_BAD_DB_ERROR : Z := 1049.
End errorcode.

(** ** The configuration object *)

(** [clp_py_utils.clp_config.Database], as far as the adapter reads it: the
    [type] discriminator and the [name] of the database.  [settings] holds
    the remaining fields, which only [get_mysql_connection_params] reads. *)
Module clp_config.
Record Database : Type := mk_Database {
  type : string;
  name : string;
  settings : kwargs
}.
End clp_config.
Import clp_config.

(** ** External effects *)

(** The argument of [logging.error]: a text, or an object that the logging
    module renders itself. *)
Inductive log_arg : Type :=
| Text (s : string)
| Obj (e : exn).

(** One entry of the trace of external effects. *)
Inductive event : Type :=
| MysqlConnect (params : kwargs)
| MariadbConnect (params : kwargs)
| LoggingError (msg : log_arg).

(** The collaborators of the adapter.  [get_mysql_connection_params] is the
    method of [Database] that derives the connection parameters (it may
    raise); the two [connect] functions are the client libraries, whose
    outcome may depend on the parameters and on everything that happened
    before. *)
Record Externals : Type := mk_Externals {
  get_mysql_connection_params : Database -> result kwargs;
  mysql_connector_connect : kwargs -> list event -> result connection;
  mariadb_connect : kwargs -> list event -> result connection
}.

(** ** Run-time state and the monad of methods *)

(** The adapter object: its only attribute. *)
Record SQL_Adapter_object : Type := mk_SQL_Adapter {
  database_config : Database
}.

(** The state a method runs in: the object bound to [self] and the trace of
    external effects so far, oldest first. *)
Record Runtime : Type := mk_Runtime {
  self : SQL_Adapter_object;
  trace : list event
}.

Definition M (A : Type) : Type := Runtime -> result A * Runtime.

Definition ret {A} (a : A) : M A := fun s => (Returned a, s).

Definition bind {A B} (m : M A) (k : A -> M B) : M B :=
  fun s =>
    match m s with
    | (Returned a, s') => k a s'
    | (Raised e, s') => (Raised e, s')
    end.

Notation "x <- m ;; k" := (bind m (fun x => k))
  (at level 61, m at next level, right associativity).
Notation "m ;;; k" := (bind m (fun _ => k))
  (at level 61, right associativity).

(** [raise e] *)
Definition raise {A} (e : exn) : M A := fun s => (Raised e, s).

(** The outcome of a pure call that may raise. *)
Definition call {A} (r : result A) : M A := fun s => (r, s).

(** Append an effect to the trace. *)
Definition emit (ev : event) : M unit :=
  fun s => (Returned tt, mk_Runtime (self s) (trace s ++ [ev])).

(** [try: body  except C as err: handler err  else: orelse v]: [handler]
    runs when [body] raises an exception [C] matches, [orelse] when [body]
    returns; an exception [C] does not match passes through. *)
Definition try_except_else {A B E}
    (body : M A) (C : exn -> option E)
    (handler : E -> M B) (orelse : A -> M B) : M B :=
  fun s =>
    match body s with
    | (Returned a, s') => orelse a s'
    | (Raised e, s') =>
        match C e with
        | Some err => handler err s'
        | None => (Raised e, s')
        end
    end.

(** [self.database_config] *)
Definition self_database_config : M Database :=
  fun s => (Returned (database_config (self s)), s).

(** [logging.error(msg)] *)
Definition logging_error (msg : log_arg) : M unit :=
  emit (LoggingError msg).

(** The double-quote character of the f-string in
    [create_mysql_connection]. *)
Definition dquote : string := String "034"%char EmptyString.

(** ** The class [SQL_Adapter] *)

Module SQL_Adapter.
Section Methods.
Variable X : Externals.

(** [def __init__(self, database_config)] *)
Definition __init__ (database_config : Database) : M unit :=
  fun s => (Returned tt, mk_Runtime (mk_SQL_Adapter database_config) (trace s)).

(** [mysql.connector.connect( **params)]: the call is recorded, then the
    library answers. *)
Definition mysql_connect_call (params : kwargs) : M connection :=
  fun s =>
    (mysql_connector_connect X params (trace s),
     mk_Runtime (self s) (trace s ++ [MysqlConnect params])).

(** [mariadb.connect( **params)] *)
Definition mariadb_connect_call (params : kwargs) : M connection :=
  fun s =>
    (mariadb_connect X params (trace s),
     mk_Runtime (self s) (trace s ++ [MariadbConnect params])).

(** [def create_mysql_connection(self)] *)
Definition create_mysql_connection : M connection :=
  try_except_else
    (cfg <- self_database_config ;;
     params <- call (get_mysql_connection_params X cfg) ;;
     mysql_connect_call params)
    except_mysql_connector_Error
    (fun err =>
       (if errno err =? errorcode.ER_ACCESS_DENIED_ERROR then
          logging_error (Text "Database access denied.")
        else if errno err =? errorcode.ER_BAD_DB_ERROR then
          cfg <- self_database_config ;;
          logging_error
            (Text ("Specified database " ++ dquote ++ name cfg ++ dquote
                   ++ " does not exist."))
        else
          logging_error (Obj (mysql_connector_Error err))) ;;;
       raise (mysql_connector_Error err))
    (fun connection => ret connection).

(** [def create_mariadb_connection(self)] *)
Definition create_mariadb_connection : M connection :=
  try_except_else
    (cfg <- self_database_config ;;
     params <- call (get_mysql_connection_params X cfg) ;;
     mariadb_connect_call params)
    except_mariadb_Error
    (fun err =>
       logging_error (Text ("Error connecting to MariaDB: " ++ err_str err)) ;;;
       raise (mariadb_Error err))
    (fun connection => ret connection).

(** [def create_connection(self)] *)
Definition create_connection : M connection :=
  cfg <- self_database_config ;;
  if String.eqb "mysql" (type cfg) then
    create_mysql_connection
  else if String.eqb "mariadb" (type cfg) then
    create_mariadb_connection
  else
    raise (NotImplementedError []).

End Methods.
End SQL_Adapter.

(** ** Observing a run *)

(** The messages handed to [logging.error], oldest first. *)
Fixpoint logged (tr : list event) : list log_arg :=
  match tr with
  | [] => []
  | LoggingError msg :: tr' => msg :: logged tr'
  | _ :: tr' => logged tr'
  end.

(** The parameter mappings handed to [mysql.connector.connect]. *)
Fixpoint mysql_calls (tr : list event) : list kwargs :=
  match tr with
  | [] => []
  | MysqlConnect p :: tr' => p :: mysql_calls tr'
  | _ :: tr' => mysql_calls tr'
  end.

(** The parameter mappings handed to [mariadb.connect]. *)
Fixpoint mariadb_calls (tr : list event) : list kwargs :=
  match tr with
  | [] => []
  | MariadbConnect p :: tr' => p :: mariadb_calls tr'
  | _ :: tr' => mariadb_calls tr'
  end.

(** [sub] occurs in [s]. *)
Definition is_substring (sub s : string) : Prop :=
  exists pre post, s = (pre ++ sub ++ post)%string.

(** The argument of the one [logging.error] call that the handler of
    [create_mysql_connection] makes for a client error. *)
Definition mysql_log_arg (d : Database) (err : client_error) : log_arg :=
  if errno err =? errorcode.ER_ACCESS_DENIED_ERROR then
    Text "Database access denied."
  else if errno err =? errorcode.ER_BAD_DB_ERROR then
    Text ("Specified database " ++ dquote ++ name d ++ dquote
          ++ " does not exist.")
  else Obj (mysql_connector_Error err).

(** ** Callers *)

(** The three operations a caller can invoke on an adapter. *)
Inductive operation : Type :=
| CreateConnection
| CreateMysqlConnection
| CreateMariadbConnection.

Definition run_operation (X : Externals) (op : operation) : M connection :=
  match op with
  | CreateConnection => SQL_Adapter.create_connection X
  | CreateMysqlConnection => SQL_Adapter.create_mysql_connection X
  | CreateMariadbConnection => SQL_Adapter.create_mariadb_connection X
  end.

(** A caller that invokes the operations one after the other, catching
    whatever they raise, and the state it ends in. *)
Definition run_operations (X : Externals) (ops : list operation)
    (s : Runtime) : Runtime :=
  fold_left (fun s' op => snd (run_operation X op s')) ops s.

(** The failure that arises while [op] runs in state [s], if any: the
    parameter derivation raises, the client's [connect] raises, or the type
    discriminator is not a supported one. *)
Definition connect_failure {A} (X : Externals)
    (connect : kwargs -> list event -> result A) (s : Runtime) : option exn :=
  match get_mysql_connection_params X (database_config (self s)) with
  | Raised e => Some e
  | Returned params =>
      match connect params (trace s) with
      | Raised e => Some e
      | Returned _ => None
      end
  end.

Definition arising_failure (X : Externals) (op : operation) (s : Runtime)
    : option exn :=
  match op with
  | CreateMysqlConnection => connect_failure X (mysql_connector_connect X) s
  | CreateMariadbConnection => connect_failure X (mariadb_connect X) s
  | CreateConnection =>
      if String.eqb (type (database_config (self s))) "mysql" then
        connect_failure X (mysql_connector_connect X) s
      else if String.eqb (type (database_config (self s))) "mariadb" then
        connect_failure X (mariadb_connect X) s
      else Some (NotImplementedError [])
  end.

(** ** Mock collaborators *)

(** A parameter derivation in the manner of [clp_config]: the database name
    next to the remaining settings. *)
Definition mock_params (d : Database) : result kwargs :=
  Returned (("database", VStr (name d)) :: settings d).

(** Clients that answer every call the same way. *)
Definition mock (mysql mariadb : result connection) : Externals :=
  mk_Externals mock_params (fun _ _ => mysql) (fun _ _ => mariadb).

Definition mock_config (type name : string) : Database :=
  mk_Database type name [("host", VStr "localhost"); ("port", VInt 3306)].

Definition mock_runtime (type name : string) : Runtime :=
  mk_Runtime (mk_SQL_Adapter (mock_config type name)) [].

Definition access_denied : client_error :=
  mk_client_error 1 1045 "1045 (28000): Access denied for user".

Definition unknown_database : client_error :=
  mk_client_error 2 1049 "1049 (42000): Unknown database".

Definition server_gone : client_error :=
  mk_client_error 3 2003 "2003: Cannot connect to MySQL server".

Definition timeout : client_error :=
  mk_client_error 4 (-1) "timeout".

Definition type_error : exn :=
  OtherException "TypeError" 5 "connect() got an unexpected keyword argument".

(** The mapping [mock_params] derives from [mock_config type name]. *)
Definition mock_kwargs (name : string) : kwargs :=
  [("database", VStr name); ("host", VStr "localhost"); ("port", VInt 3306)].

Definition mock_ok : Externals :=
  mock (Returned (ConnectionHandle 1)) (Returned (ConnectionHandle 2)).

Definition mock_access_denied : Externals :=
  mock (Raised (mysql_connector_Error access_denied))
       (Returned (ConnectionHandle 2)).

Definition mock_unknown_database : Externals :=
  mock (Raised (mysql_connector_Error unknown_database))
       (Returned (ConnectionHandle 2)).

Definition mock_timeout : Externals :=
  mock (Returned (ConnectionHandle 1)) (Raised (mariadb_Error timeout)).

(** Clients that raise what their [except] clause does not match. *)
Definition mock_foreign : Externals :=
  mock (Raised type_error) (Raised (mysql_connector_Error server_gone)).

(** A configuration whose parameter derivation raises [e]; the clients
    would answer with a handle. *)
Definition mock_derivation_raises (e : exn) : Externals :=
  mk_Externals (fun _ => Raised e)
    (fun _ _ => Returned (ConnectionHandle 1))
    (fun _ _ => Returned (ConnectionHandle 2)).

Definition credentials_missing : exn :=
  OtherException "ValueError" 6 "Credentials not loaded.".

(** ** Basic facts *)

Lemma except_mysql_connector_Error_inv (e : exn) (err : client_error) :
  except_mysql_connector_Error e = Some err -> e = mysql_connector_Error err.
Proof. destruct e; simpl; congruence. Qed.

Lemma except_mariadb_Error_inv (e : exn) (err : client_error) :
  except_mariadb_Error e = Some err -> e = mariadb_Error err.
Proof. destruct e; simpl; congruence. Qed.

Lemma logged_app (tr1 tr2 : list event) :
  logged (tr1 ++ tr2) = logged tr1 ++ logged tr2.
Proof.
  induction tr1 as [|ev tr1 IH]; simpl; [reflexivity|].
  destruct ev; simpl; rewrite IH; reflexivity.
Qed.

Lemma mysql_calls_app (tr1 tr2 : list event) :
  mysql_calls (tr1 ++ tr2) = mysql_calls tr1 ++ mysql_calls tr2.
Proof.
  induction tr1 as [|ev tr1 IH]; simpl; [reflexivity|].
  destruct ev; simpl; rewrite IH; reflexivity.
Qed.

Lemma mariadb_calls_app (tr1 tr2 : list event) :
  mariadb_calls (tr1 ++ tr2) = mariadb_calls tr1 ++ mariadb_calls tr2.
Proof.
  induction tr1 as [|ev tr1 IH]; simpl; [reflexivity|].
  destruct ev; simpl; rewrite IH; reflexivity.
Qed.

Lemma is_substring_middle (pre sub post : string) :
  is_substring sub (pre ++ sub ++ post)%string.
Proof. exists pre, post. reflexivity. Qed.

Lemma string_app_nil_r (a : string) : (a ++ "")%string = a.
Proof. induction a as [|ch a IH]; simpl; [reflexivity | now rewrite IH]. Qed.

(** Unfold the monad down to matches on the collaborators' outcomes. *)
Ltac unfold_methods :=
  unfold SQL_Adapter.create_connection, SQL_Adapter.create_mysql_connection,
    SQL_Adapter.create_mariadb_connection, SQL_Adapter.mysql_connect_call,
    SQL_Adapter.mariadb_connect_call, SQL_Adapter.__init__,
    try_except_else, bind, ret, raise, call, self_database_config,
    logging_error, emit in *;
  cbn [self trace database_config fst snd] in *.

(** ** The methods, outcome by outcome *)

Section Outcomes.
Variable X : Externals.
Variable s : Runtime.

Local Abbreviation cfg := (database_config (self s)).

Lemma create_mysql_connection_returns (params : kwargs) (c : connection) :
  get_mysql_connection_params X cfg = Returned params ->
  mysql_connector_connect X params (trace s) = Returned c ->
  SQL_Adapter.create_mysql_connection X s
  = (Returned c, mk_Runtime (self s) (trace s ++ [MysqlConnect params])).
Proof.
  intros Hp Hc. unfold_methods. rewrite Hp, Hc. reflexivity.
Qed.

Lemma create_mysql_connection_client_error
    (params : kwargs) (err : client_error) :
  get_mysql_connection_params X cfg = Returned params ->
  mysql_connector_connect X params (trace s)
  = Raised (mysql_connector_Error err) ->
  SQL_Adapter.create_mysql_connection X s
  = (Raised (mysql_connector_Error err),
     mk_Runtime (self s)
       (trace s ++ [MysqlConnect params; LoggingError (mysql_log_arg cfg err)])).
Proof.
  intros Hp Hc. unfold_methods. rewrite Hp, Hc. simpl.
  unfold mysql_log_arg.
  destruct (errno err =? errorcode.ER_ACCESS_DENIED_ERROR);
    [|destruct (errno err =? errorcode.ER_BAD_DB_ERROR)];
    unfold_methods; rewrite <- app_assoc; reflexivity.
Qed.

Lemma create_mysql_connection_foreign (params : kwargs) (e : exn) :
  get_mysql_connection_params X cfg = Returned params ->
  mysql_connector_connect X params (trace s) = Raised e ->
  except_mysql_connector_Error e = None ->
  SQL_Adapter.create_mysql_connection X s
  = (Raised e, mk_Runtime (self s) (trace s ++ [MysqlConnect params])).
Proof.
  intros Hp Hc He. unfold_methods. rewrite Hp, Hc, He. reflexivity.
Qed.

Lemma create_mariadb_connection_returns (params : kwargs) (c : connection) :
  get_mysql_connection_params X cfg = Returned params ->
  mariadb_connect X params (trace s) = Returned c ->
  SQL_Adapter.create_mariadb_connection X s
  = (Returned c, mk_Runtime (self s) (trace s ++ [MariadbConnect params])).
Proof.
  intros Hp Hc. unfold_methods. rewrite Hp, Hc. reflexivity.
Qed.

Lemma create_mariadb_connection_client_error
    (params : kwargs) (err : client_error) :
  get_mysql_connection_params X cfg = Returned params ->
  mariadb_connect X params (trace s) = Raised (mariadb_Error err) ->
  SQL_Adapter.create_mariadb_connection X s
  = (Raised (mariadb_Error err),
     mk_Runtime (self s)
       (trace s ++ [MariadbConnect params;
                    LoggingError
                      (Text ("Error connecting to MariaDB: " ++ err_str err))])).
Proof.
  intros Hp Hc. unfold_methods. rewrite Hp, Hc. simpl.
  rewrite <- app_assoc. reflexivity.
Qed.

Lemma create_mariadb_connection_foreign (params : kwargs) (e : exn) :
  get_mysql_connection_params X cfg = Returned params ->
  mariadb_connect X params (trace s) = Raised e ->
  except_mariadb_Error e = None ->
  SQL_Adapter.create_mariadb_connection X s
  = (Raised e, mk_Runtime (self s) (trace s ++ [MariadbConnect params])).
Proof.
  intros Hp Hc He. unfold_methods. rewrite Hp, Hc, He. reflexivity.
Qed.

Lemma create_connection_mysql :
  type cfg = "mysql" ->
  SQL_Adapter.create_connection X s = SQL_Adapter.create_mysql_connection X s.
Proof.
  intros Ht. unfold SQL_Adapter.create_connection, bind,
    self_database_config. rewrite Ht. reflexivity.
Qed.

Lemma create_connection_mariadb :
  type cfg = "mariadb" ->
  SQL_Adapter.create_connection X s = SQL_Adapter.create_mariadb_connection X s.
Proof.
  intros Ht. unfold SQL_Adapter.create_connection, bind,
    self_database_config. rewrite Ht. reflexivity.
Qed.

Lemma create_connection_other :
  type cfg <> "mysql" -> type cfg <> "mariadb" ->
  SQL_Adapter.create_connection X s = (Raised (NotImplementedError []), s).
Proof.
  intros H1 H2. unfold SQL_Adapter.create_connection, bind,
    self_database_config, raise.
  destruct (String.eqb_spec "mysql" (type (database_config (self s))));
    [congruence|].
  destruct (String.eqb_spec "mariadb" (type (database_config (self s))));
    [congruence|].
  reflexivity.
Qed.

End Outcomes.

(** ** Every operation, whatever the collaborators do *)

Section Frames.
Variable X : Externals.

(** What an operation adds to the trace: at most one call of the library
    it uses, then at most one [logging.error] call, and none of either once
    the outcome is known. *)
Lemma create_mysql_connection_outcome (s : Runtime) :
  exists delta,
    snd (SQL_Adapter.create_mysql_connection X s)
    = mk_Runtime (self s) (trace s ++ delta)
    /\ (length (logged delta) <= 1)%nat
    /\ (length (mysql_calls delta) <= 1)%nat
    /\ mariadb_calls delta = []
    /\ match connect_failure X (mysql_connector_connect X) s with
       | Some e => fst (SQL_Adapter.create_mysql_connection X s) = Raised e
       | None =>
           exists c, fst (SQL_Adapter.create_mysql_connection X s) = Returned c
       end.
Proof.
  unfold connect_failure. unfold_methods.
  destruct (get_mysql_connection_params X (database_config (self s)))
    as [params|e] eqn:Hp.
  - destruct (mysql_connector_connect X params (trace s)) as [c|e] eqn:Hc.
    + exists [MysqlConnect params]. cbn. repeat split; eauto.
    + destruct (except_mysql_connector_Error e) as [err|] eqn:He.
      * apply except_mysql_connector_Error_inv in He. subst e.
        exists [MysqlConnect params; LoggingError (mysql_log_arg (database_config (self s)) err)].
        unfold mysql_log_arg.
        destruct (errno err =? errorcode.ER_ACCESS_DENIED_ERROR);
          [|destruct (errno err =? errorcode.ER_BAD_DB_ERROR)];
          cbn; rewrite <- app_assoc; repeat split; auto.
      * exists [MysqlConnect params]. cbn. repeat split; auto.
  - destruct (except_mysql_connector_Error e) as [err|] eqn:He.
    + apply except_mysql_connector_Error_inv in He. subst e.
      exists [LoggingError (mysql_log_arg (database_config (self s)) err)].
      unfold mysql_log_arg.
      destruct (errno err =? errorcode.ER_ACCESS_DENIED_ERROR);
        [|destruct (errno err =? errorcode.ER_BAD_DB_ERROR)];
        cbn; repeat split; auto.
    + exists []. cbn. rewrite app_nil_r. destruct s; repeat split; auto.
Qed.

Lemma create_mariadb_connection_outcome (s : Runtime) :
  exists delta,
    snd (SQL_Adapter.create_mariadb_connection X s)
    = mk_Runtime (self s) (trace s ++ delta)
    /\ (length (logged delta) <= 1)%nat
    /\ mysql_calls delta = []
    /\ (length (mariadb_calls delta) <= 1)%nat
    /\ match connect_failure X (mariadb_connect X) s with
       | Some e => fst (SQL_Adapter.create_mariadb_connection X s) = Raised e
       | None =>
           exists c,
             fst (SQL_Adapter.create_mariadb_connection X s) = Returned c
       end.
Proof.
  unfold connect_failure. unfold_methods.
  destruct (get_mysql_connection_params X (database_config (self s)))
    as [params|e] eqn:Hp.
  - destruct (mariadb_connect X params (trace s)) as [c|e] eqn:Hc.
    + exists [MariadbConnect params]. cbn. repeat split; eauto.
    + destruct (except_mariadb_Error e) as [err|] eqn:He.
      * apply except_mariadb_Error_inv in He. subst e.
        eexists [MariadbConnect params; LoggingError _].
        cbn. rewrite <- app_assoc. repeat split; auto.
      * exists [MariadbConnect params]. cbn. repeat split; auto.
  - destruct (except_mariadb_Error e) as [err|] eqn:He.
    + apply except_mariadb_Error_inv in He. subst e.
      eexists [LoggingError _]. cbn. repeat split; auto.
    + exists []. cbn. rewrite app_nil_r. destruct s; repeat split; auto.
Qed.

(** The same for any of the three operations, with the failure that arises
    in it. *)
Lemma run_operation_outcome (op : operation) (s : Runtime) :
  exists delta,
    snd (run_operation X op s) = mk_Runtime (self s) (trace s ++ delta)
    /\ (length (logged delta) <= 1)%nat
    /\ (length (mysql_calls delta) + length (mariadb_calls delta) <= 1)%nat
    /\ match arising_failure X op s with
       | Some e => fst (run_operation X op s) = Raised e
       | None => exists c, fst (run_operation X op s) = Returned c
       end.
Proof.
  assert (Hmy : exists delta,
    snd (SQL_Adapter.create_mysql_connection X s)
    = mk_Runtime (self s) (trace s ++ delta)
    /\ (length (logged delta) <= 1)%nat
    /\ (length (mysql_calls delta) + length (mariadb_calls delta) <= 1)%nat
    /\ match connect_failure X (mysql_connector_connect X) s with
       | Some e => fst (SQL_Adapter.create_mysql_connection X s) = Raised e
       | None =>
           exists c, fst (SQL_Adapter.create_mysql_connection X s) = Returned c
       end).
  { destruct (create_mysql_connection_outcome s)
      as (delta & Hs & Hl & Hc1 & Hc2 & Hr).
    exists delta. rewrite Hc2. simpl. repeat split; auto; lia. }
  assert (Hma : exists delta,
    snd (SQL_Adapter.create_mariadb_connection X s)
    = mk_Runtime (self s) (trace s ++ delta)
    /\ (length (logged delta) <= 1)%nat
    /\ (length (mysql_calls delta) + length (mariadb_calls delta) <= 1)%nat
    /\ match connect_failure X (mariadb_connect X) s with
       | Some e => fst (SQL_Adapter.create_mariadb_connection X s) = Raised e
       | None =>
           exists c,
             fst (SQL_Adapter.create_mariadb_connection X s) = Returned c
       end).
  { destruct (create_mariadb_connection_outcome s)
      as (delta & Hs & Hl & Hc1 & Hc2 & Hr).
    exists delta. rewrite Hc1. simpl. repeat split; auto. }
  destruct op; simpl; [|exact Hmy|exact Hma].
  destruct (String.eqb_spec (type (database_config (self s))) "mysql")
    as [Ht|Ht].
  { rewrite (create_connection_mysql X s Ht). exact Hmy. }
  destruct (String.eqb_spec (type (database_config (self s))) "mariadb")
    as [Ht'|Ht'].
  { rewrite (create_connection_mariadb X s Ht'). exact Hma. }
  rewrite (create_connection_other X s Ht Ht').
  exists []. simpl. rewrite app_nil_r. destruct s; repeat split; auto.
Qed.

Lemma run_operation_self (op : operation) (s : Runtime) :
  self (snd (run_operation X op s)) = self s.
Proof.
  destruct (run_operation_outcome op s) as (delta & Hs & _).
  rewrite Hs. reflexivity.
Qed.

Lemma run_operations_self (ops : list operation) (s : Runtime) :
  self (run_operations X ops s) = self s.
Proof.
  unfold run_operations. revert s.
  induction ops as [|op ops IH]; intros s; simpl; [reflexivity|].
  rewrite IH. apply run_operation_self.
Qed.

End Frames.

(** ** The specification of the adapter *)

Section Specification.
Variable X : Externals.

Local Abbreviation config s := (database_config (self s)).

(** C1. Dispatch by delegation: when the configuration's [type] is
    ["mysql"], [create_connection] is [create_mysql_connection] (the same
    outcome, returned or raised, and the same final state, hence the same
    side effects); when it is ["mariadb"], it is
    [create_mariadb_connection]. *)
Theorem create_connection_delegates (s : Runtime) :
  (type (config s) = "mysql" ->
   SQL_Adapter.create_connection X s
   = SQL_Adapter.create_mysql_connection X s)
  /\
  (type (config s) = "mariadb" ->
   SQL_Adapter.create_connection X s
   = SQL_Adapter.create_mariadb_connection X s).
Proof.
  split.
  - apply create_connection_mysql.
  - apply create_connection_mariadb.
Qed.

(** C2. For a [type] that is neither ["mysql"] nor ["mariadb"],
    [create_connection] raises the unsupported-type error and leaves the
    state as it was: nothing is logged and no client's [connect] is
    called. *)
Theorem create_connection_unsupported_type (s : Runtime) :
  type (config s) <> "mysql" ->
  type (config s) <> "mariadb" ->
  exists e s',
    SQL_Adapter.create_connection X s = (Raised e, s')
    /\ e = NotImplementedError []
    /\ s' = s
    /\ logged (trace s') = logged (trace s)
    /\ mysql_calls (trace s') = mysql_calls (trace s)
    /\ mariadb_calls (trace s') = mariadb_calls (trace s).
Proof.
  intros H1 H2. exists (NotImplementedError []), s.
  rewrite (create_connection_other X s H1 H2). repeat split.
Qed.

(** C3. When the MySQL client's [connect] raises a client error,
    [create_mysql_connection] makes exactly one [logging.error] call after
    the connection attempt, with an argument chosen by [errno]: the fixed
    access-denied text for [ER_ACCESS_DENIED_ERROR]; a text that contains
    the configuration's [name] for [ER_BAD_DB_ERROR]; the error object
    itself for every other number. *)
Theorem create_mysql_connection_logs_by_errno
    (s : Runtime) (params : kwargs) (err : client_error) :
  get_mysql_connection_params X (config s) = Returned params ->
  mysql_connector_connect X params (trace s)
  = Raised (mysql_connector_Error err) ->
  exists msg,
    snd (SQL_Adapter.create_mysql_connection X s)
    = mk_Runtime (self s)
        (trace s ++ [MysqlConnect params; LoggingError msg])
    /\ logged (trace (snd (SQL_Adapter.create_mysql_connection X s)))
       = logged (trace s) ++ [msg]
    /\ (errno err = errorcode.ER_ACCESS_DENIED_ERROR ->
        msg = Text "Database access denied.")
    /\ (errno err = errorcode.ER_BAD_DB_ERROR ->
        msg = Text ("Specified database " ++ dquote ++ name (config s)
                    ++ dquote ++ " does not exist.")
        /\ exists text, msg = Text text /\ is_substring (name (config s)) text)
    /\ (errno err <> errorcode.ER_ACCESS_DENIED_ERROR ->
        errno err <> errorcode.ER_BAD_DB_ERROR ->
        msg = Obj (mysql_connector_Error err)).
Proof.
  intros Hp Hc. exists (mysql_log_arg (config s) err).
  rewrite (create_mysql_connection_client_error X s params err Hp Hc).
  cbn [snd trace]. split; [reflexivity|]. split.
  { rewrite logged_app. simpl. reflexivity. }
  unfold mysql_log_arg, errorcode.ER_ACCESS_DENIED_ERROR,
    errorcode.ER_BAD_DB_ERROR.
  split; [|split].
  - intros ->. reflexivity.
  - intros ->. simpl. split; [reflexivity|].
    eexists; split; [reflexivity|].
    change (is_substring (name (config s))
              (("Specified database " ++ dquote)
               ++ name (config s) ++ (dquote ++ " does not exist."))%string).
    apply is_substring_middle.
  - intros H1 H2.
    destruct (Z.eqb_spec (errno err) 1045); [contradiction|].
    destruct (Z.eqb_spec (errno err) 1049); [contradiction|].
    reflexivity.
Qed.

(** C4. When the MariaDB client's [connect] raises a client error,
    [create_mariadb_connection] makes exactly one [logging.error] call,
    whose text contains the text of the error, and then raises that same
    error. *)
Theorem create_mariadb_connection_logs_and_reraises
    (s : Runtime) (params : kwargs) (err : client_error) :
  get_mysql_connection_params X (config s) = Returned params ->
  mariadb_connect X params (trace s) = Raised (mariadb_Error err) ->
  exists text,
    SQL_Adapter.create_mariadb_connection X s
    = (Raised (mariadb_Error err),
       mk_Runtime (self s)
         (trace s ++ [MariadbConnect params; LoggingError (Text text)]))
    /\ logged (trace (snd (SQL_Adapter.create_mariadb_connection X s)))
       = logged (trace s) ++ [Text text]
    /\ is_substring (err_str err) text.
Proof.
  intros Hp Hc.
  exists ("Error connecting to MariaDB: " ++ err_str err)%string.
  rewrite (create_mariadb_connection_client_error X s params err Hp Hc).
  cbn [snd trace]. split; [reflexivity|]. split.
  - rewrite logged_app. reflexivity.
  - rewrite <- (string_app_nil_r (err_str err)) at 2.
    apply is_substring_middle.
Qed.

(** C5. Whatever failure arises in an operation (the parameter derivation
    or the client's [connect] raises, or the type is unsupported) is what
    the operation raises, the very same exception, and the operation raises
    nothing else; on the way it calls [logging.error] at most once and a
    client's [connect] at most once. *)
Theorem failures_propagate_unchanged (op : operation) (s : Runtime) :
  (forall e,
     arising_failure X op s = Some e
     <-> fst (run_operation X op s) = Raised e)
  /\
  exists delta,
    trace (snd (run_operation X op s)) = trace s ++ delta
    /\ (length (logged delta) <= 1)%nat
    /\ (length (mysql_calls delta) + length (mariadb_calls delta) <= 1)%nat.
Proof.
  destruct (run_operation_outcome X op s) as (delta & Hs & Hl & Hc & Hr).
  split.
  - intros e. destruct (arising_failure X op s) as [e'|].
    + rewrite Hr. split; congruence.
    + destruct Hr as [c Hr]. rewrite Hr. split; discriminate.
  - exists delta. rewrite Hs. auto.
Qed.

(** C6. The constructor stores the configuration it is given, whatever it
    is, without raising and without any effect; and after any sequence of
    operations, failed or not, the stored configuration is still that
    one. *)
Theorem database_config_stored_and_preserved
    (d : Database) (s0 : Runtime) (ops : list operation) :
  exists s1,
    SQL_Adapter.__init__ d s0 = (Returned tt, s1)
    /\ database_config (self s1) = d
    /\ trace s1 = trace s0
    /\ database_config (self (run_operations X ops s1)) = d.
Proof.
  eexists. split; [reflexivity|]. cbn [self trace database_config].
  rewrite run_operations_self. auto.
Qed.

(** C7. Both creation methods hand their client the same mapping: the one
    [get_mysql_connection_params] derives from the configuration (and they
    call no client when the derivation raises). *)
Theorem connect_calls_share_params (s : Runtime) :
  let passed :=
    match get_mysql_connection_params X (config s) with
    | Returned params => [params]
    | Raised _ => []
    end in
  mysql_calls (trace (snd (SQL_Adapter.create_mysql_connection X s)))
  = mysql_calls (trace s) ++ passed
  /\
  mariadb_calls (trace (snd (SQL_Adapter.create_mariadb_connection X s)))
  = mariadb_calls (trace s) ++ passed.
Proof.
  cbv zeta. unfold_methods.
  destruct (get_mysql_connection_params X (config s)) as [params|e]; split.
  - destruct (mysql_connector_connect X params (trace s)) as [c|e];
      [|destruct e as [err| | |]]; cbn;
      try (destruct (errno err =? errorcode.ER_ACCESS_DENIED_ERROR);
           [|destruct (errno err =? errorcode.ER_BAD_DB_ERROR)]; cbn);
      rewrite ?mysql_calls_app; cbn; rewrite ?app_nil_r; reflexivity.
  - destruct (mariadb_connect X params (trace s)) as [c|e];
      [|destruct e as [|err| |]]; cbn;
      rewrite ?mariadb_calls_app; cbn; rewrite ?app_nil_r; reflexivity.
  - destruct e as [err| | |]; cbn;
      try (destruct (errno err =? errorcode.ER_ACCESS_DENIED_ERROR);
           [|destruct (errno err =? errorcode.ER_BAD_DB_ERROR)]; cbn);
      rewrite ?mysql_calls_app; cbn; rewrite ?app_nil_r; reflexivity.
  - destruct e as [|err| |]; cbn;
      rewrite ?mariadb_calls_app; cbn; rewrite ?app_nil_r; reflexivity.
Qed.

(** C8. Only the client library's own error class is logged: an exception
    of any other class raised by [connect] leaves the method as it is, and
    the trace gains the connection attempt and no [logging.error] call. *)
Theorem foreign_exceptions_pass_unlogged
    (s : Runtime) (params : kwargs) (e : exn) :
  get_mysql_connection_params X (config s) = Returned params ->
  (mysql_connector_connect X params (trace s) = Raised e ->
   except_mysql_connector_Error e = None ->
   SQL_Adapter.create_mysql_connection X s
   = (Raised e, mk_Runtime (self s) (trace s ++ [MysqlConnect params]))
   /\ logged (trace (snd (SQL_Adapter.create_mysql_connection X s)))
      = logged (trace s))
  /\
  (mariadb_connect X params (trace s) = Raised e ->
   except_mariadb_Error e = None ->
   SQL_Adapter.create_mariadb_connection X s
   = (Raised e, mk_Runtime (self s) (trace s ++ [MariadbConnect params]))
   /\ logged (trace (snd (SQL_Adapter.create_mariadb_connection X s)))
      = logged (trace s)).
Proof.
  intros Hp. split; intros Hc He.
  - rewrite (create_mysql_connection_foreign X s params e Hp Hc He).
    split; [reflexivity|]. cbn [snd trace]. rewrite logged_app. cbn.
    apply app_nil_r.
  - rewrite (create_mariadb_connection_foreign X s params e Hp Hc He).
    split; [reflexivity|]. cbn [snd trace]. rewrite logged_app. cbn.
    apply app_nil_r.
Qed.

(** C9. When [connect] returns a handle, the creation method returns that
    handle, and [create_connection] does for a recognised type; the trace
    gains the connection attempt and nothing is logged. *)
Theorem success_returns_handle_unlogged
    (s : Runtime) (params : kwargs) (c : connection) :
  get_mysql_connection_params X (config s) = Returned params ->
  (mysql_connector_connect X params (trace s) = Returned c ->
   SQL_Adapter.create_mysql_connection X s
   = (Returned c, mk_Runtime (self s) (trace s ++ [MysqlConnect params]))
   /\ (type (config s) = "mysql" ->
       SQL_Adapter.create_connection X s
       = (Returned c, mk_Runtime (self s) (trace s ++ [MysqlConnect params])))
   /\ logged (trace s ++ [MysqlConnect params]) = logged (trace s))
  /\
  (mariadb_connect X params (trace s) = Returned c ->
   SQL_Adapter.create_mariadb_connection X s
   = (Returned c, mk_Runtime (self s) (trace s ++ [MariadbConnect params]))
   /\ (type (config s) = "mariadb" ->
       SQL_Adapter.create_connection X s
       = (Returned c,
          mk_Runtime (self s) (trace s ++ [MariadbConnect params])))
   /\ logged (trace s ++ [MariadbConnect params]) = logged (trace s)).
Proof.
  intros Hp. split; intros Hc.
  - pose proof (create_mysql_connection_returns X s params c Hp Hc) as Hr.
    split; [exact Hr|]. split.
    + intros Ht. rewrite (create_connection_mysql X s Ht). exact Hr.
    + rewrite logged_app. cbn. apply app_nil_r.
  - pose proof (create_mariadb_connection_returns X s params c Hp Hc) as Hr.
    split; [exact Hr|]. split.
    + intros Ht. rewrite (create_connection_mariadb X s Ht). exact Hr.
    + rewrite logged_app. cbn. apply app_nil_r.
Qed.

(** C10. The dispatch compares the [type] string exactly: only the strings
    ["mysql"] and ["mariadb"] themselves are delegated, and every other
    one, a different capitalisation or surrounding blanks included, gets
    [NotImplementedError] with an empty [args], the same for every
    offending value. *)
Theorem create_connection_dispatch_is_exact (s : Runtime) :
  ((type (config s) = "mysql"
    /\ SQL_Adapter.create_connection X s
       = SQL_Adapter.create_mysql_connection X s)
   \/ (type (config s) = "mariadb"
       /\ SQL_Adapter.create_connection X s
          = SQL_Adapter.create_mariadb_connection X s)
   \/ (type (config s) <> "mysql" /\ type (config s) <> "mariadb"
       /\ SQL_Adapter.create_connection X s
          = (Raised (NotImplementedError []), s)))
  /\
  (In (type (config s))
      ["MySQL"; "Mysql"; "MYSQL"; " mysql"; "mysql "; "mysql2";
       "MariaDB"; "Mariadb"; " mariadb "; ""] ->
   SQL_Adapter.create_connection X s = (Raised (NotImplementedError []), s)).
Proof.
  split.
  - destruct (String.eqb_spec (type (config s)) "mysql") as [Ht|Ht].
    { left. split; [exact Ht|]. apply create_connection_mysql, Ht. }
    destruct (String.eqb_spec (type (config s)) "mariadb") as [Ht'|Ht'].
    { right; left. split; [exact Ht'|]. apply create_connection_mariadb, Ht'. }
    right; right. repeat split; auto. apply create_connection_other; auto.
  - intros Hin. apply create_connection_other;
      intros Heq; rewrite Heq in Hin; cbn in Hin;
      repeat (destruct Hin as [Hin|Hin]; [discriminate Hin|]);
      exact Hin.
Qed.

End Specification.

(** ** The specification at concrete inputs *)

(** Concrete runs of the methods against the mock collaborators. *)
Example run_unknown_database_orders :
  SQL_Adapter.create_connection mock_unknown_database
    (mock_runtime "mysql" "orders")
  = (Raised (mysql_connector_Error unknown_database),
     mk_Runtime (mk_SQL_Adapter (mock_config "mysql" "orders"))
       [MysqlConnect (mock_kwargs "orders");
        LoggingError
          (Text ("Specified database " ++ dquote ++ "orders" ++ dquote
                 ++ " does not exist."))]).
Proof. reflexivity. Qed.

Example run_mariadb_timeout :
  SQL_Adapter.create_connection mock_timeout (mock_runtime "mariadb" "clp-db")
  = (Raised (mariadb_Error timeout),
     mk_Runtime (mk_SQL_Adapter (mock_config "mariadb" "clp-db"))
       [MariadbConnect (mock_kwargs "clp-db");
        LoggingError (Text "Error connecting to MariaDB: timeout")]).
Proof. reflexivity. Qed.

Example run_postgres :
  SQL_Adapter.create_connection mock_ok (mock_runtime "postgres" "clp-db")
  = (Raised (NotImplementedError []), mock_runtime "postgres" "clp-db").
Proof. reflexivity. Qed.

Example run_three_operations :
  run_operations mock_access_denied
    [CreateConnection; CreateMysqlConnection; CreateMariadbConnection]
    (mock_runtime "sqlite" "clp-db")
  = mk_Runtime (mk_SQL_Adapter (mock_config "sqlite" "clp-db"))
      [MysqlConnect (mock_kwargs "clp-db");
       LoggingError (Text "Database access denied.");
       MariadbConnect (mock_kwargs "clp-db")].
Proof. reflexivity. Qed.

Lemma create_connection_delegates_witness :
  (type (mock_config "mysql" "clp-db") = "mysql"
   /\ SQL_Adapter.create_connection mock_ok (mock_runtime "mysql" "clp-db")
      = SQL_Adapter.create_mysql_connection mock_ok
          (mock_runtime "mysql" "clp-db"))
  /\
  (type (mock_config "mariadb" "clp-db") = "mariadb"
   /\ SQL_Adapter.create_connection mock_timeout
        (mock_runtime "mariadb" "clp-db")
      = SQL_Adapter.create_mariadb_connection mock_timeout
          (mock_runtime "mariadb" "clp-db")).
Proof.
  split; (split; [reflexivity|]).
  - apply (proj1 (create_connection_delegates mock_ok
                    (mock_runtime "mysql" "clp-db"))).
    reflexivity.
  - apply (proj2 (create_connection_delegates mock_timeout
                    (mock_runtime "mariadb" "clp-db"))).
    reflexivity.
Defined.

Lemma create_connection_unsupported_type_witness :
  type (mock_config "postgres" "clp-db") <> "mysql"
  /\ type (mock_config "postgres" "clp-db") <> "mariadb"
  /\ exists e s',
       SQL_Adapter.create_connection mock_ok
         (mock_runtime "postgres" "clp-db")
       = (Raised e, s')
       /\ e = NotImplementedError []
       /\ s' = mock_runtime "postgres" "clp-db"
       /\ logged (trace s') = logged (trace (mock_runtime "postgres" "clp-db"))
       /\ mysql_calls (trace s')
          = mysql_calls (trace (mock_runtime "postgres" "clp-db"))
       /\ mariadb_calls (trace s')
          = mariadb_calls (trace (mock_runtime "postgres" "clp-db")).
Proof.
  split; [discriminate|]. split; [discriminate|].
  apply (create_connection_unsupported_type mock_ok
           (mock_runtime "postgres" "clp-db")); discriminate.
Defined.

Lemma create_mysql_connection_logs_by_errno_witness :
  get_mysql_connection_params mock_unknown_database
    (mock_config "mysql" "orders")
  = Returned (mock_kwargs "orders")
  /\ mysql_connector_connect mock_unknown_database (mock_kwargs "orders") []
     = Raised (mysql_connector_Error unknown_database)
  /\ exists text,
       logged
         (trace
            (snd (SQL_Adapter.create_mysql_connection mock_unknown_database
                    (mock_runtime "mysql" "orders"))))
       = [Text text]
       /\ is_substring "orders" text.
Proof.
  split; [reflexivity|]. split; [reflexivity|].
  destruct (create_mysql_connection_logs_by_errno mock_unknown_database
              (mock_runtime "mysql" "orders") (mock_kwargs "orders")
              unknown_database eq_refl eq_refl)
    as (msg & _ & Hlog & _ & Hbad & _).
  destruct (Hbad eq_refl) as (_ & text & Hmsg & Hsub).
  exists text. split; [|exact Hsub].
  rewrite Hlog, Hmsg. reflexivity.
Defined.

Lemma create_mariadb_connection_logs_and_reraises_witness :
  get_mysql_connection_params mock_timeout (mock_config "mariadb" "clp-db")
  = Returned (mock_kwargs "clp-db")
  /\ mariadb_connect mock_timeout (mock_kwargs "clp-db") []
     = Raised (mariadb_Error timeout)
  /\ exists text,
       SQL_Adapter.create_mariadb_connection mock_timeout
         (mock_runtime "mariadb" "clp-db")
       = (Raised (mariadb_Error timeout),
          mk_Runtime (mk_SQL_Adapter (mock_config "mariadb" "clp-db"))
            [MariadbConnect (mock_kwargs "clp-db");
             LoggingError (Text text)])
       /\ is_substring "timeout" text.
Proof.
  split; [reflexivity|]. split; [reflexivity|].
  destruct (create_mariadb_connection_logs_and_reraises mock_timeout
              (mock_runtime "mariadb" "clp-db") (mock_kwargs "clp-db")
              timeout eq_refl eq_refl)
    as (text & Hrun & _ & Hsub).
  exists text. split; [exact Hrun | exact Hsub].
Defined.

Lemma foreign_exceptions_pass_unlogged_witness :
  get_mysql_connection_params mock_foreign (mock_config "mysql" "clp-db")
  = Returned (mock_kwargs "clp-db")
  /\ (SQL_Adapter.create_mysql_connection mock_foreign
        (mock_runtime "mysql" "clp-db")
      = (Raised type_error,
         mk_Runtime (mk_SQL_Adapter (mock_config "mysql" "clp-db"))
           [MysqlConnect (mock_kwargs "clp-db")])
      /\ logged
           (trace
              (snd (SQL_Adapter.create_mysql_connection mock_foreign
                      (mock_runtime "mysql" "clp-db"))))
         = [])
  /\ (SQL_Adapter.create_mariadb_connection mock_foreign
        (mock_runtime "mysql" "clp-db")
      = (Raised (mysql_connector_Error server_gone),
         mk_Runtime (mk_SQL_Adapter (mock_config "mysql" "clp-db"))
           [MariadbConnect (mock_kwargs "clp-db")])
      /\ logged
           (trace
              (snd (SQL_Adapter.create_mariadb_connection mock_foreign
                      (mock_runtime "mysql" "clp-db"))))
         = []).
Proof.
  split; [reflexivity|]. split.
  - apply (proj1 (foreign_exceptions_pass_unlogged mock_foreign
                    (mock_runtime "mysql" "clp-db") (mock_kwargs "clp-db")
                    type_error eq_refl));
      reflexivity.
  - apply (proj2 (foreign_exceptions_pass_unlogged mock_foreign
                    (mock_runtime "mysql" "clp-db") (mock_kwargs "clp-db")
                    (mysql_connector_Error server_gone) eq_refl));
      reflexivity.
Defined.

Lemma success_returns_handle_unlogged_witness :
  get_mysql_connection_params mock_ok (mock_config "mysql" "clp-db")
  = Returned (mock_kwargs "clp-db")
  /\ SQL_Adapter.create_connection mock_ok (mock_runtime "mysql" "clp-db")
     = (Returned (ConnectionHandle 1),
        mk_Runtime (mk_SQL_Adapter (mock_config "mysql" "clp-db"))
          [MysqlConnect (mock_kwargs "clp-db")])
  /\ SQL_Adapter.create_mariadb_connection mock_ok
       (mock_runtime "mysql" "clp-db")
     = (Returned (ConnectionHandle 2),
        mk_Runtime (mk_SQL_Adapter (mock_config "mysql" "clp-db"))
          [MariadbConnect (mock_kwargs "clp-db")]).
Proof.
  split; [reflexivity|]. split.
  - apply (proj1 (success_returns_handle_unlogged mock_ok
                    (mock_runtime "mysql" "clp-db") (mock_kwargs "clp-db")
                    (ConnectionHandle 1) eq_refl));
      reflexivity.
  - apply (proj2 (success_returns_handle_unlogged mock_ok
                    (mock_runtime "mysql" "clp-db") (mock_kwargs "clp-db")
                    (ConnectionHandle 2) eq_refl));
      reflexivity.
Defined.

Lemma create_connection_dispatch_is_exact_witness :
  In (type (mock_config "MySQL" "clp-db"))
     ["MySQL"; "Mysql"; "MYSQL"; " mysql"; "mysql "; "mysql2";
      "MariaDB"; "Mariadb"; " mariadb "; ""]
  /\ SQL_Adapter.create_connection mock_ok (mock_runtime "MySQL" "clp-db")
     = (Raised (NotImplementedError []), mock_runtime "MySQL" "clp-db").
Proof.
  split; [left; reflexivity|].
  apply (proj2 (create_connection_dispatch_is_exact mock_ok
                  (mock_runtime "MySQL" "clp-db"))).
  left; reflexivity.
Defined.

(** ** Further properties of the adapter *)

Section Further.
Variable X : Externals.

Local Abbreviation config s := (database_config (self s)).

(** X1. The parameter derivation runs inside the [try]: when it raises an
    exception that the method's [except] clause does not match, the method
    raises that exception and nothing else happens, no client is called and
    nothing is logged. *)
Theorem derivation_failure_passes_untouched (s : Runtime) (e : exn) :
  get_mysql_connection_params X (config s) = Raised e ->
  (except_mysql_connector_Error e = None ->
   SQL_Adapter.create_mysql_connection X s = (Raised e, s))
  /\
  (except_mariadb_Error e = None ->
   SQL_Adapter.create_mariadb_connection X s = (Raised e, s)).
Proof.
  intros Hp. split; intros He; unfold_methods; rewrite Hp, He; reflexivity.
Qed.

(** X2. Because the derivation is inside the [try], a client-class error
    raised by it is handled like a failed connection: the method logs one
    message and raises the error, although no [connect] call was made. *)
Theorem derivation_client_error_is_logged
    (s : Runtime) (err : client_error) :
  (get_mysql_connection_params X (config s)
   = Raised (mysql_connector_Error err) ->
   exists msg,
     SQL_Adapter.create_mysql_connection X s
     = (Raised (mysql_connector_Error err),
        mk_Runtime (self s) (trace s ++ [LoggingError msg])))
  /\
  (get_mysql_connection_params X (config s) = Raised (mariadb_Error err) ->
   SQL_Adapter.create_mariadb_connection X s
   = (Raised (mariadb_Error err),
      mk_Runtime (self s)
        (trace s ++ [LoggingError
                       (Text ("Error connecting to MariaDB: "
                              ++ err_str err))]))).
Proof.
  split; intros Hp; unfold_methods; rewrite Hp; cbn.
  - exists (mysql_log_arg (config s) err). unfold mysql_log_arg.
    destruct (errno err =? errorcode.ER_ACCESS_DENIED_ERROR);
      [|destruct (errno err =? errorcode.ER_BAD_DB_ERROR)]; reflexivity.
  - reflexivity.
Qed.

(** X3. A creation method logs exactly when it raises an error of its own
    client's class: one message then, none when it returns or raises
    anything else. *)
Theorem logs_exactly_on_own_client_error (s : Runtime) :
  match fst (SQL_Adapter.create_mysql_connection X s) with
  | Raised (mysql_connector_Error _) =>
      exists msg,
        logged (trace (snd (SQL_Adapter.create_mysql_connection X s)))
        = logged (trace s) ++ [msg]
  | _ =>
      logged (trace (snd (SQL_Adapter.create_mysql_connection X s)))
      = logged (trace s)
  end
  /\
  match fst (SQL_Adapter.create_mariadb_connection X s) with
  | Raised (mariadb_Error _) =>
      exists msg,
        logged (trace (snd (SQL_Adapter.create_mariadb_connection X s)))
        = logged (trace s) ++ [msg]
  | _ =>
      logged (trace (snd (SQL_Adapter.create_mariadb_connection X s)))
      = logged (trace s)
  end.
Proof.
  split; unfold_methods.
  - destruct (get_mysql_connection_params X (config s)) as [params|e];
      [destruct (mysql_connector_connect X params (trace s)) as [c|e]|];
      try destruct e as [err| | |]; cbn;
      try (destruct (errno err =? errorcode.ER_ACCESS_DENIED_ERROR);
           [|destruct (errno err =? errorcode.ER_BAD_DB_ERROR)]; cbn);
      rewrite ?logged_app; cbn; rewrite ?app_nil_r; eauto.
  - destruct (get_mysql_connection_params X (config s)) as [params|e];
      [destruct (mariadb_connect X params (trace s)) as [c|e]|];
      try destruct e as [|err| |]; cbn;
      rewrite ?logged_app; cbn; rewrite ?app_nil_r; eauto.
Qed.

(** X4. A creation method never calls the other library: the MySQL method
    makes no [mariadb.connect] call and the MariaDB method no
    [mysql.connector.connect] call, and so [create_connection] calls only
    the client its [type] names. *)
Theorem other_client_never_called (s : Runtime) :
  mariadb_calls (trace (snd (SQL_Adapter.create_mysql_connection X s)))
  = mariadb_calls (trace s)
  /\ mysql_calls (trace (snd (SQL_Adapter.create_mariadb_connection X s)))
     = mysql_calls (trace s)
  /\ (type (config s) = "mysql" ->
      mariadb_calls (trace (snd (SQL_Adapter.create_connection X s)))
      = mariadb_calls (trace s))
  /\ (type (config s) = "mariadb" ->
      mysql_calls (trace (snd (SQL_Adapter.create_connection X s)))
      = mysql_calls (trace s)).
Proof.
  assert (Hmy : mariadb_calls
                  (trace (snd (SQL_Adapter.create_mysql_connection X s)))
                = mariadb_calls (trace s)).
  { destruct (create_mysql_connection_outcome X s)
      as (delta & Hs & _ & _ & Hnone & _).
    rewrite Hs. cbn [trace]. rewrite mariadb_calls_app, Hnone.
    apply app_nil_r. }
  assert (Hma : mysql_calls
                  (trace (snd (SQL_Adapter.create_mariadb_connection X s)))
                = mysql_calls (trace s)).
  { destruct (create_mariadb_connection_outcome X s)
      as (delta & Hs & _ & Hnone & _).
    rewrite Hs. cbn [trace]. rewrite mysql_calls_app, Hnone.
    apply app_nil_r. }
  repeat split; auto.
  - intros Ht. rewrite (create_connection_mysql X s Ht). exact Hmy.
  - intros Ht. rewrite (create_connection_mariadb X s Ht). exact Hma.
Qed.

(** X5. A caller that makes [n] calls, catching what they raise, only
    extends the record of effects, by at most [n] log messages and at most
    [n] connection attempts: nothing is retried behind its back. *)
Theorem run_operations_effects_bounded
    (ops : list operation) (s : Runtime) :
  exists delta,
    trace (run_operations X ops s) = trace s ++ delta
    /\ (length (logged delta) <= length ops)%nat
    /\ (length (mysql_calls delta) + length (mariadb_calls delta)
        <= length ops)%nat.
Proof.
  unfold run_operations. revert s.
  induction ops as [|op ops IH]; intros s; cbn [fold_left length].
  - exists []. rewrite app_nil_r. cbn. auto.
  - destruct (run_operation_outcome X op s) as (d1 & Hs & Hl1 & Hc1 & _).
    destruct (IH (snd (run_operation X op s))) as (d2 & Ht & Hl2 & Hc2).
    exists (d1 ++ d2). rewrite Ht, Hs. cbn [trace].
    rewrite app_assoc, logged_app, mysql_calls_app, mariadb_calls_app,
      !length_app.
    repeat split; lia.
Qed.

End Further.

Section Independence.
Variable X : Externals.

Local Abbreviation config s := (database_config (self s)).

(** X6. The adapter keeps nothing between calls: when the clients answer
    by the parameters alone, whatever was called before, an operation has
    the same outcome after any sequence of earlier operations as it has at
    once. *)
Theorem outcome_independent_of_earlier_calls
    (op : operation) (ops : list operation) (s : Runtime) :
  (forall params tr tr',
     mysql_connector_connect X params tr
     = mysql_connector_connect X params tr') ->
  (forall params tr tr',
     mariadb_connect X params tr = mariadb_connect X params tr') ->
  fst (run_operation X op (run_operations X ops s))
  = fst (run_operation X op s).
Proof.
  intros Hmy Hma.
  pose proof (run_operations_self X ops s) as Hself.
  set (s' := run_operations X ops s) in *.
  assert (Emy : fst (SQL_Adapter.create_mysql_connection X s')
                = fst (SQL_Adapter.create_mysql_connection X s)).
  { unfold_methods. rewrite Hself.
    destruct (get_mysql_connection_params X (config s)) as [params|e].
    - rewrite (Hmy params (trace s') (trace s)).
      destruct (mysql_connector_connect X params (trace s)) as [c|e];
        [reflexivity|].
      destruct e as [err| | |]; cbn; try reflexivity.
      destruct (errno err =? errorcode.ER_ACCESS_DENIED_ERROR);
        [|destruct (errno err =? errorcode.ER_BAD_DB_ERROR)]; reflexivity.
    - destruct e as [err| | |]; cbn; try reflexivity.
      destruct (errno err =? errorcode.ER_ACCESS_DENIED_ERROR);
        [|destruct (errno err =? errorcode.ER_BAD_DB_ERROR)]; reflexivity. }
  assert (Ema : fst (SQL_Adapter.create_mariadb_connection X s')
                = fst (SQL_Adapter.create_mariadb_connection X s)).
  { unfold_methods. rewrite Hself.
    destruct (get_mysql_connection_params X (config s)) as [params|e].
    - rewrite (Hma params (trace s') (trace s)).
      destruct (mariadb_connect X params (trace s)) as [c|e];
        [reflexivity|].
      destruct e as [|err| |]; reflexivity.
    - destruct e as [|err| |]; reflexivity. }
  destruct op; cbn [run_operation]; [|exact Emy|exact Ema].
  unfold SQL_Adapter.create_connection, bind, self_database_config.
  rewrite Hself.
  destruct (String.eqb "mysql" (type (config s))); [exact Emy|].
  destruct (String.eqb "mariadb" (type (config s))); [exact Ema|].
  reflexivity.
Qed.

(** X7. The creation methods themselves do not look at [type]: on two
    configurations with the same derived parameters (and, for the MySQL
    method, the same [name]) they have the same outcome and leave the same
    trace, whatever the two [type] fields say. *)
Theorem creation_methods_ignore_type (s1 s2 : Runtime) :
  trace s1 = trace s2 ->
  get_mysql_connection_params X (config s1)
  = get_mysql_connection_params X (config s2) ->
  (name (config s1) = name (config s2) ->
   fst (SQL_Adapter.create_mysql_connection X s1)
   = fst (SQL_Adapter.create_mysql_connection X s2)
   /\ trace (snd (SQL_Adapter.create_mysql_connection X s1))
      = trace (snd (SQL_Adapter.create_mysql_connection X s2)))
  /\
  (fst (SQL_Adapter.create_mariadb_connection X s1)
   = fst (SQL_Adapter.create_mariadb_connection X s2)
   /\ trace (snd (SQL_Adapter.create_mariadb_connection X s1))
      = trace (snd (SQL_Adapter.create_mariadb_connection X s2))).
Proof.
  intros Ht Hp. split; [intros Hn|]; unfold_methods; rewrite Hp, Ht.
  - destruct (get_mysql_connection_params X (config s2)) as [params|e];
      [destruct (mysql_connector_connect X params (trace s2)) as [c|e]|];
      try destruct e as [err| | |]; cbn; auto;
      (destruct (errno err =? errorcode.ER_ACCESS_DENIED_ERROR);
       [|destruct (errno err =? errorcode.ER_BAD_DB_ERROR)]); cbn;
      rewrite ?Ht, ?Hn; auto.
  - destruct (get_mysql_connection_params X (config s2)) as [params|e];
      [destruct (mariadb_connect X params (trace s2)) as [c|e]|];
      try destruct e as [|err| |]; cbn; rewrite ?Ht; auto.
Qed.

End Independence.

Lemma derivation_failure_passes_untouched_witness :
  get_mysql_connection_params (mock_derivation_raises credentials_missing)
    (mock_config "mysql" "clp-db")
  = Raised credentials_missing
  /\ SQL_Adapter.create_mysql_connection
       (mock_derivation_raises credentials_missing)
       (mock_runtime "mysql" "clp-db")
     = (Raised credentials_missing, mock_runtime "mysql" "clp-db")
  /\ SQL_Adapter.create_mariadb_connection
       (mock_derivation_raises credentials_missing)
       (mock_runtime "mysql" "clp-db")
     = (Raised credentials_missing, mock_runtime "mysql" "clp-db").
Proof.
  split; [reflexivity|]. split.
  - apply (proj1 (derivation_failure_passes_untouched
                    (mock_derivation_raises credentials_missing)
                    (mock_runtime "mysql" "clp-db") credentials_missing
                    eq_refl)).
    reflexivity.
  - apply (proj2 (derivation_failure_passes_untouched
                    (mock_derivation_raises credentials_missing)
                    (mock_runtime "mysql" "clp-db") credentials_missing
                    eq_refl)).
    reflexivity.
Defined.

Lemma derivation_client_error_is_logged_witness :
  (exists msg,
     SQL_Adapter.create_mysql_connection
       (mock_derivation_raises (mysql_connector_Error access_denied))
       (mock_runtime "mysql" "clp-db")
     = (Raised (mysql_connector_Error access_denied),
        mk_Runtime (mk_SQL_Adapter (mock_config "mysql" "clp-db"))
          [LoggingError msg]))
  /\
  SQL_Adapter.create_mariadb_connection
    (mock_derivation_raises (mariadb_Error timeout))
    (mock_runtime "mariadb" "clp-db")
  = (Raised (mariadb_Error timeout),
     mk_Runtime (mk_SQL_Adapter (mock_config "mariadb" "clp-db"))
       [LoggingError (Text "Error connecting to MariaDB: timeout")]).
Proof.
  split.
  - apply (proj1 (derivation_client_error_is_logged
                    (mock_derivation_raises
                       (mysql_connector_Error access_denied))
                    (mock_runtime "mysql" "clp-db") access_denied)).
    reflexivity.
  - apply (proj2 (derivation_client_error_is_logged
                    (mock_derivation_raises (mariadb_Error timeout))
                    (mock_runtime "mariadb" "clp-db") timeout)).
    reflexivity.
Defined.

Lemma other_client_never_called_witness :
  (type (mock_config "mysql" "clp-db") = "mysql"
   /\ mariadb_calls
        (trace (snd (SQL_Adapter.create_connection mock_ok
                       (mock_runtime "mysql" "clp-db"))))
      = [])
  /\
  (type (mock_config "mariadb" "clp-db") = "mariadb"
   /\ mysql_calls
        (trace (snd (SQL_Adapter.create_connection mock_ok
                       (mock_runtime "mariadb" "clp-db"))))
      = []).
Proof.
  split; (split; [reflexivity|]).
  - apply (proj1 (proj2 (proj2 (other_client_never_called mock_ok
                                  (mock_runtime "mysql" "clp-db"))))).
    reflexivity.
  - apply (proj2 (proj2 (proj2 (other_client_never_called mock_ok
                                  (mock_runtime "mariadb" "clp-db"))))).
    reflexivity.
Defined.

Lemma outcome_independent_of_earlier_calls_witness :
  (forall params tr tr',
     mysql_connector_connect mock_access_denied params tr
     = mysql_connector_connect mock_access_denied params tr')
  /\ (forall params tr tr',
        mariadb_connect mock_access_denied params tr
        = mariadb_connect mock_access_denied params tr')
  /\ fst (run_operation mock_access_denied CreateConnection
            (run_operations mock_access_denied
               [CreateMariadbConnection; CreateMysqlConnection]
               (mock_runtime "mysql" "clp-db")))
     = fst (run_operation mock_access_denied CreateConnection
              (mock_runtime "mysql" "clp-db")).
Proof.
  split; [reflexivity|]. split; [reflexivity|].
  apply (outcome_independent_of_earlier_calls mock_access_denied
           CreateConnection [CreateMariadbConnection; CreateMysqlConnection]
           (mock_runtime "mysql" "clp-db"));
    reflexivity.
Defined.

Lemma creation_methods_ignore_type_witness :
  trace (mock_runtime "mysql" "clp-db")
  = trace (mock_runtime "postgres" "clp-db")
  /\ get_mysql_connection_params mock_ok (mock_config "mysql" "clp-db")
     = get_mysql_connection_params mock_ok (mock_config "postgres" "clp-db")
  /\ name (mock_config "mysql" "clp-db")
     = name (mock_config "postgres" "clp-db")
  /\ (fst (SQL_Adapter.create_mysql_connection mock_ok
             (mock_runtime "mysql" "clp-db"))
      = fst (SQL_Adapter.create_mysql_connection mock_ok
               (mock_runtime "postgres" "clp-db"))
      /\ trace (snd (SQL_Adapter.create_mysql_connection mock_ok
                       (mock_runtime "mysql" "clp-db")))
         = trace (snd (SQL_Adapter.create_mysql_connection mock_ok
                         (mock_runtime "postgres" "clp-db")))).
Proof.
  split; [reflexivity|]. split; [reflexivity|]. split; [reflexivity|].
  apply (proj1 (creation_methods_ignore_type mock_ok
                  (mock_runtime "mysql" "clp-db")
                  (mock_runtime "postgres" "clp-db") eq_refl eq_refl)).
  reflexivity.
Defined.
